(** * main.py: the App Engine fallback entry point

    A shallow embedding of [main.py] and of the part of Flask and Werkzeug
    that its twelve lines exercise: the application object and its URL map,
    the [route] decorator, request dispatch, the conversion of a view's
    return value into a response, and [app.run].

    Python code that touches interpreter state (module globals, the process's
    standard error, its listening socket, the request context) is written in
    a state-and-exception monad [Py]. *)

From Stdlib Require Import String Ascii List ZArith Bool Lia DecimalString.
Import ListNotations.
Local Open Scope string_scope.
Local Open Scope Z_scope.

(* ===================================================================== *)
(** * Strings *)
(* ===================================================================== *)

Definition LF : string := String (ascii_of_nat 10) EmptyString.

(** [s[n:]] *)
Fixpoint drop (n : nat) (s : string) : string :=
  match n, s with
  | O, _ => s
  | S _, EmptyString => EmptyString
  | S n', String _ s' => drop n' s'
  end.

(** [s.partition(c)]: the text before and after the first [c], if any. *)
Fixpoint partition (c : ascii) (s : string) : option (string * string) :=
  match s with
  | EmptyString => None
  | String a s' =>
      if Ascii.eqb a c then Some (EmptyString, s')
      else match partition c s' with
           | Some (l, r) => Some (String a l, r)
           | None => None
           end
  end.

Definition str_of_Z (z : Z) : string := NilZero.string_of_int (Z.to_int z).

Fixpoint join (sep : string) (l : list string) : string :=
  match l with
  | [] => ""
  | [x] => x
  | x :: l' => x ++ sep ++ join sep l'
  end.

(* ===================================================================== *)
(** * HTTP messages *)
(* ===================================================================== *)

Inductive Method : Set :=
  GET | HEAD | POST | PUT | DELETE | CONNECT | OPTIONS | TRACE | PATCH.

Definition Method_eq_dec (a b : Method) : {a = b} + {a <> b}.
Proof. decide equality. Defined.

Definition Method_eqb (a b : Method) : bool :=
  if Method_eq_dec a b then true else false.

Definition Method_name (m : Method) : string :=
  match m with
  | GET => "GET" | HEAD => "HEAD" | POST => "POST" | PUT => "PUT"
  | DELETE => "DELETE" | CONNECT => "CONNECT" | OPTIONS => "OPTIONS"
  | TRACE => "TRACE" | PATCH => "PATCH"
  end.

Definition mem_method (m : Method) (ms : list Method) : bool :=
  existsb (Method_eqb m) ms.

(** [ms | {m}] on a set kept as a duplicate-free list. *)
Definition add_method (m : Method) (ms : list Method) : list Method :=
  if mem_method m ms then ms else ms ++ [m].

Definition union_methods (a b : list Method) : list Method :=
  fold_left (fun acc m => add_method m acc) b a.

(** An inbound request as the application sees it.  [path] is the path the
    URL adapter matches rules against: an absolute path, Werkzeug having
    reduced any run of leading slashes to one; the query string is not part
    of it. *)
Record Request : Set := mkRequest {
  method : Method;
  path : string;
  query_string : string;
  headers : list (string * string);
  body : string
}.

Record Response : Set := mkResponse {
  status : Z;
  resp_headers : list (string * string);
  data : string
}.

Definition content_type_html : string * string :=
  ("Content-Type", "text/html; charset=utf-8").

(** [Response(data)]: status 200 and the default mimetype. *)
Definition Response_of (payload : string) : Response :=
  mkResponse 200 [content_type_html] payload.

(* ===================================================================== *)
(** * Exceptions *)
(* ===================================================================== *)

(** [werkzeug.exceptions.HTTPException]; [valid_methods] is only set by
    [MethodNotAllowed]. *)
Record HTTPException : Set := mkHTTPException {
  code : Z;
  name : string;
  description : string;
  valid_methods : list Method
}.

Definition NotFound : HTTPException :=
  mkHTTPException 404 "Not Found"
    "The requested URL was not found on the server. If you entered the URL manually please check your spelling and try again."
    [].

Definition MethodNotAllowed (valid : list Method) : HTTPException :=
  mkHTTPException 405 "Method Not Allowed"
    "The method is not allowed for the requested URL." valid.

Definition InternalServerError : HTTPException :=
  mkHTTPException 500 "Internal Server Error"
    "The server encountered an internal error and was unable to complete your request. Either the server is overloaded or there is an error in the application."
    [].

Inductive Exn : Set :=
| HTTPError (e : HTTPException)
| AssertionError (msg : string)
| TypeError (msg : string)
| KeyError (key : string).

(** [HTTPException.get_body] *)
Definition get_body (e : HTTPException) : string :=
  "<!doctype html>" ++ LF ++
  "<html lang=en>" ++ LF ++
  "<title>" ++ str_of_Z (code e) ++ " " ++ name e ++ "</title>" ++ LF ++
  "<h1>" ++ name e ++ "</h1>" ++ LF ++
  "<p>" ++ description e ++ "</p>" ++ LF.

(** [HTTPException.get_headers]: [MethodNotAllowed] adds [Allow]. *)
Definition get_headers (e : HTTPException) : list (string * string) :=
  content_type_html ::
  match valid_methods e with
  | [] => []
  | ms => [("Allow", join ", " (map Method_name ms))]
  end.

(** [HTTPException.get_response] *)
Definition get_response (e : HTTPException) : Response :=
  mkResponse (code e) (get_headers e) (get_body e).

(* ===================================================================== *)
(** * URL rules (werkzeug.routing) *)
(* ===================================================================== *)

(** A rule string is literal text interleaved with [<converter:name>]
    placeholders; [<name>] alone uses the default converter. *)
Inductive Part : Set :=
| Static (text : string)
| Converter (conv arg : string).

Fixpoint parse_rule (fuel : nat) (s : string) : list Part :=
  match fuel with
  | O => []
  | S fuel' =>
      match partition "<"%char s with
      | None => if String.eqb s "" then [] else [Static s]
      | Some (pre, rest) =>
          match partition ">"%char rest with
          | None => [Static s]
          | Some (spec, post) =>
              let var := match partition ":"%char spec with
                         | Some (c, a) => Converter c a
                         | None => Converter "default" spec
                         end in
              (if String.eqb pre "" then [] else [Static pre])
                ++ var :: parse_rule fuel' post
          end
      end
  end.

(** Matching a path against the parts of a rule, giving the view arguments.
    The [path] converter is [[^/].*?] and is supported in final position,
    where it takes the whole remainder; every other converter is matched as
    the default one, [[^/]+]. *)
Fixpoint match_parts (ps : list Part) (p : string)
  : option (list (string * string)) :=
  match ps with
  | [] => if String.eqb p "" then Some [] else None
  | Static t :: ps' =>
      if prefix t p then match_parts ps' (drop (String.length t) p) else None
  | Converter c a :: ps' =>
      if String.eqb c "path" then
        match ps', p with
        | [], String ch _ => if Ascii.eqb ch "/" then None else Some [(a, p)]
        | _, _ => None
        end
      else
        let seg := match partition "/"%char p with
                   | Some (l, _) => l
                   | None => p
                   end in
        if String.eqb seg "" then None
        else match match_parts ps' (drop (String.length seg) p) with
             | Some args => Some ((a, seg) :: args)
             | None => None
             end
  end.

Record Rule : Set := mkRule {
  rule : string;
  methods : list Method;
  endpoint : string;
  provide_automatic_options : bool
}.

(** [Rule.__init__]: a rule that answers GET also answers HEAD. *)
Definition Rule_init (r : string) (ms : list Method) (ep : string)
    (auto_options : bool) : Rule :=
  let ms := if mem_method GET ms && negb (mem_method HEAD ms)
            then add_method HEAD ms else ms in
  mkRule r ms ep auto_options.

Definition rule_match (r : Rule) (p : string) : option (list (string * string)) :=
  match_parts (parse_rule (S (String.length (rule r))) (rule r)) p.

Inductive MatchResult : Set :=
| Matched (r : Rule) (view_args : list (string * string))
| RoutingError (e : HTTPException).

(** [MapAdapter.match]: the first rule that matches path and method wins; a
    rule that matches the path alone contributes its methods to the 405
    answer; no rule at all is a 404.  [m = None] is the method [--] that
    [allowed_methods] probes with.  Rules are tried in the order they were
    added.  The redirects Werkzeug issues instead of a 404 (a missing
    trailing slash, repeated slashes inside a path that some rule matches
    once they are merged) are not modelled: for the two rules of this
    application they concern only the empty path and paths under
    [/static/]. *)
Fixpoint match_rules (rules : list Rule) (m : option Method) (p : string)
    (have_match_for : list Method) : MatchResult :=
  match rules with
  | [] =>
      match have_match_for with
      | [] => RoutingError NotFound
      | ms => RoutingError (MethodNotAllowed ms)
      end
  | r :: rs =>
      match rule_match r p with
      | None => match_rules rs m p have_match_for
      | Some args =>
          if match m with Some m' => mem_method m' (methods r) | None => false end
          then Matched r args
          else match_rules rs m p (union_methods have_match_for (methods r))
      end
  end.

(** [MapAdapter.allowed_methods] *)
Definition allowed_methods (rules : list Rule) (p : string) : list Method :=
  match match_rules rules None p [] with
  | RoutingError e => valid_methods e
  | Matched _ _ => []
  end.

(* ===================================================================== *)
(** * The interpreter's state and the [Py] monad *)
(* ===================================================================== *)

(** Function objects that end up in [app.view_functions]: the module's
    [index] and the closure over [send_static_file] that the [Flask]
    constructor registers. *)
Inductive Callable : Set := fn_index | fn_send_static_file.

Definition Callable_eqb (f g : Callable) : bool :=
  match f, g with
  | fn_index, fn_index | fn_send_static_file, fn_send_static_file => true
  | _, _ => false
  end.

Definition func_name (f : Callable) : string :=
  match f with
  | fn_index => "index"
  | fn_send_static_file => "<lambda>"
  end.

Fixpoint lookup {V : Type} (k : string) (d : list (string * V)) : option V :=
  match d with
  | [] => None
  | (k', v) :: d' => if String.eqb k k' then Some v else lookup k d'
  end.

(** [d[k] = v] *)
Fixpoint setitem {V : Type} (k : string) (v : V) (d : list (string * V))
  : list (string * V) :=
  match d with
  | [] => [(k, v)]
  | (k', v') :: d' =>
      if String.eqb k k' then (k, v) :: d' else (k', v') :: setitem k v d'
  end.

Record Flask : Set := mkFlask {
  import_name : string;
  static_url_path : string;
  static_folder : option string;
  url_map : list Rule;
  view_functions : list (string * Callable)
}.

(** What a run of the program can observe or change.
    - [app]: the module global of that name, once assigned;
    - [stderr]: lines logged so far;
    - [listening]: the address the HTTP server was started on, if it was;
    - [request_ctx]: the stack of request contexts (what [flask.request]
      resolves to is its top);
    - [static_files]: the files of the application's static folder, by
      name relative to it. *)
Record World : Set := mkWorld {
  app : option Flask;
  stderr : list string;
  listening : option (string * Z);
  request_ctx : list Request;
  static_files : list (string * string)
}.

Inductive Result (A : Type) : Type :=
| Ok (a : A)
| Raise (e : Exn).
Arguments Ok {A} a.
Arguments Raise {A} e.

Definition Py (A : Type) : Type := World -> Result A * World.

Definition ret {A} (a : A) : Py A := fun w => (Ok a, w).

Definition bind {A B} (c : Py A) (k : A -> Py B) : Py B :=
  fun w => match c w with
           | (Ok a, w') => k a w'
           | (Raise e, w') => (Raise e, w')
           end.

Definition raise {A} (e : Exn) : Py A := fun w => (Raise e, w).

(** [try: c  except Exception as e: h(e)] *)
Definition try_except {A} (c : Py A) (h : Exn -> Py A) : Py A :=
  fun w => match c w with
           | (Ok a, w') => (Ok a, w')
           | (Raise e, w') => h e w'
           end.

Definition lift {A} (r : Result A) : Py A := fun w => (r, w).

Declare Scope py_scope.
Delimit Scope py_scope with py.
Notation "x <- c ;; k" := (bind c (fun x => k))
  (at level 61, c at next level, right associativity) : py_scope.
Notation "c ;; k" := (bind c (fun _ => k))
  (at level 61, right associativity) : py_scope.
Local Open Scope py_scope.

Definition log_line (l : string) : Py unit :=
  fun w => (Ok tt, mkWorld (app w) (stderr w ++ [l]) (listening w)
                     (request_ctx w) (static_files w)).

Definition set_app (a : Flask) : Py unit :=
  fun w => (Ok tt, mkWorld (Some a) (stderr w) (listening w)
                     (request_ctx w) (static_files w)).

Definition listen (host : string) (port : Z) : Py unit :=
  fun w => (Ok tt, mkWorld (app w) (stderr w) (Some (host, port))
                     (request_ctx w) (static_files w)).

Definition push_request (r : Request) : Py unit :=
  fun w => (Ok tt, mkWorld (app w) (stderr w) (listening w)
                     (r :: request_ctx w) (static_files w)).

Definition pop_request : Py unit :=
  fun w => (Ok tt, mkWorld (app w) (stderr w) (listening w)
                     (tl (request_ctx w)) (static_files w)).

(* ===================================================================== *)
(** * The application object (flask.Flask) *)
(* ===================================================================== *)

Definition has_static_folder (self : Flask) : bool :=
  match static_folder self with Some _ => true | None => false end.

(** [Flask.add_url_rule(rule, endpoint, view_func, methods=...)].  Without
    [methods] a rule answers GET; OPTIONS is added and answered by the
    framework unless the caller lists it.  The updated object is the
    result; registering a second function under a taken endpoint raises. *)
Definition add_url_rule (r : string) (ep : option string)
    (view_func : Callable) (ms : option (list Method)) (self : Flask)
  : Result Flask :=
  let ep := match ep with Some e => e | None => func_name view_func end in
  let ms := match ms with Some l => l | None => [GET] end in
  let auto_options := negb (mem_method OPTIONS ms) in
  let ms := if auto_options then add_method OPTIONS ms else ms in
  let rule_obj := Rule_init r ms ep auto_options in
  let added := mkFlask (import_name self) (static_url_path self)
                 (static_folder self) (url_map self ++ [rule_obj])
                 (setitem ep view_func (view_functions self)) in
  match lookup ep (view_functions self) with
  | Some old_func =>
      if Callable_eqb old_func view_func then Ok added
      else Raise (AssertionError
        ("View function mapping is overwriting an existing endpoint function: " ++ ep))
  | None => Ok added
  end.

(** [@self.route(rule)] applied to [f]: the endpoint is the function's name. *)
Definition route (r : string) (f : Callable) (self : Flask) : Result Flask :=
  add_url_rule r None f None self.

(** [Flask(import_name)]: [static_folder] defaults to ["static"], so the
    constructor registers the static route. *)
Definition Flask_init (import_name : string) : Result Flask :=
  let self := mkFlask import_name "/static" (Some "static") [] [] in
  if has_static_folder self
  then add_url_rule (static_url_path self ++ "/<path:filename>")
         (Some "static") fn_send_static_file None self
  else Ok self.

(** [Flask.send_static_file(filename)]: the file out of the static folder,
    or 404.  The headers that [send_file] derives from the file are left
    out. *)
Definition send_static_file (filename : string) : Py Response :=
  fun w => match lookup filename (static_files w) with
           | Some content => (Ok (mkResponse 200 [] content), w)
           | None => (Raise (HTTPError NotFound), w)
           end.

(** [Flask.run(host, port)]: start the development server on that address.
    Serving itself is [wsgi_app] below, one request at a time. *)
Definition run (self : Flask) (host : string) (port : Z) : Py unit :=
  log_line (" * Running on http://" ++ host ++ ":" ++ str_of_Z port) ;;
  listen host port.

(* ===================================================================== *)
(** * main.py *)
(* ===================================================================== *)

(** [[
    @app.route('/')
    def index():
        return "This route should not be reached - check app.yaml static handlers"
    ]] *)
Definition index : Py string :=
  ret "This route should not be reached - check app.yaml static handlers".

(** A method call [app.m(...)] that updates the object bound to the module
    global [app]. *)
Definition on_app (m : Flask -> Result Flask) : Py unit :=
  fun w => match app w with
           | None => (Raise (KeyError "app"), w)
           | Some a => match m a with
                       | Ok a' => set_app a' w
                       | Raise e => (Raise e, w)
                       end
           end.

Definition get_app : Py Flask :=
  fun w => match app w with
           | None => (Raise (KeyError "app"), w)
           | Some a => (Ok a, w)
           end.

(** The module body, run with [__name__] bound to [dunder_name]:
    [[
    app = Flask(__name__)
    @app.route('/')
    def index(): ...
    if __name__ == '__main__':
        app.run(host='0.0.0.0', port=8080)
    ]] *)
Definition main (dunder_name : string) : Py unit :=
  a <- lift (Flask_init dunder_name) ;;
  set_app a ;;
  on_app (route "/" fn_index) ;;
  if String.eqb dunder_name "__main__"
  then a <- get_app ;; run a "0.0.0.0" 8080
  else ret tt.

(* ===================================================================== *)
(** * Request dispatch (flask.Flask.wsgi_app) *)
(* ===================================================================== *)

Inductive ReturnValue : Set :=
| RvStr (s : string)
| RvResponse (r : Response).

(** Calling a view function with the view arguments as keywords. *)
Definition call (f : Callable) (view_args : list (string * string))
  : Py ReturnValue :=
  match f with
  | fn_index =>
      match view_args with
      | [] => s <- index ;; ret (RvStr s)
      | (k, _) :: _ =>
          raise (TypeError ("index() got an unexpected keyword argument " ++ k))
      end
  | fn_send_static_file =>
      match lookup "filename" view_args with
      | Some filename => r <- send_static_file filename ;; ret (RvResponse r)
      | None => raise (TypeError "send_static_file() missing 1 required positional argument")
      end
  end.

Definition match_request (self : Flask) (req : Request) : MatchResult :=
  match_rules (url_map self) (Some (method req)) (path req) [].

(** [Flask.make_default_options_response] *)
Definition make_default_options_response (self : Flask) (req : Request)
  : Response :=
  mkResponse 200
    [content_type_html;
     ("Allow", join ", " (map Method_name (allowed_methods (url_map self) (path req))))]
    "".

(** What [Flask.dispatch_request] decides from the routing result: re-raise
    the routing exception, answer OPTIONS itself, or call the view function
    registered under the rule's endpoint. *)
Inductive Target : Set :=
| Abort (e : Exn)
| AutomaticOptions
| CallView (f : Callable) (view_args : list (string * string)).

Definition dispatch_target (self : Flask) (req : Request) : Target :=
  match match_request self req with
  | RoutingError e => Abort (HTTPError e)
  | Matched r view_args =>
      if provide_automatic_options r && Method_eqb (method req) OPTIONS
      then AutomaticOptions
      else match lookup (endpoint r) (view_functions self) with
           | Some f => CallView f view_args
           | None => Abort (KeyError (endpoint r))
           end
  end.

(** [Flask.dispatch_request] *)
Definition dispatch_request (self : Flask) (req : Request) : Py ReturnValue :=
  match dispatch_target self req with
  | Abort e => raise e
  | AutomaticOptions => ret (RvResponse (make_default_options_response self req))
  | CallView f view_args => call f view_args
  end.

(** [Flask.make_response] *)
Definition make_response (rv : ReturnValue) : Response :=
  match rv with
  | RvStr s => Response_of s
  | RvResponse r => r
  end.

(** [Flask.handle_user_exception]: an HTTP exception is its own response,
    anything else propagates. *)
Definition handle_user_exception (e : Exn) : Py Response :=
  match e with
  | HTTPError h => ret (get_response h)
  | _ => raise e
  end.

(** [Flask.full_dispatch_request] *)
Definition full_dispatch_request (self : Flask) (req : Request) : Py Response :=
  try_except
    (rv <- dispatch_request self req ;; ret (make_response rv))
    handle_user_exception.

(** [Flask.handle_exception]: log, answer 500. *)
Definition handle_exception (req : Request) (e : Exn) : Py Response :=
  log_line ("Exception on " ++ path req ++ " [" ++ Method_name (method req) ++ "]") ;;
  ret (get_response InternalServerError).

(** What the WSGI server sends for a response object: no payload in answer
    to HEAD. *)
Definition get_wsgi_response (req : Request) (resp : Response) : Response :=
  match method req with
  | HEAD => mkResponse (status resp) (resp_headers resp) ""
  | _ => resp
  end.

(** [Flask.wsgi_app]: push the request context, dispatch, pop. *)
Definition wsgi_app (self : Flask) (req : Request) : Py Response :=
  push_request req ;;
  resp <- try_except (full_dispatch_request self req) (handle_exception req) ;;
  pop_request ;;
  ret (get_wsgi_response req resp).

(** Whether answering [req] calls the view function [f]. *)
Definition calls_view (self : Flask) (req : Request) (f : Callable) : bool :=
  match dispatch_target self req with
  | CallView g _ => Callable_eqb g f
  | _ => false
  end.

(** The process after its module body ran as [dunder_name], answering one
    request: the response and the world left behind.  [None] if the module
    body failed or left no [app]. *)
Definition serve (dunder_name : string) (w0 : World) (req : Request)
  : option (Response * World) :=
  match main dunder_name w0 with
  | (Ok _, w) =>
      match app w with
      | Some a =>
          match wsgi_app a req w with
          | (Ok resp, w') => Some (resp, w')
          | (Raise _, _) => None
          end
      | None => None
      end
  | (Raise _, _) => None
  end.

(* ===================================================================== *)
(** * Notions the statements use *)
(* ===================================================================== *)

(** The fixed diagnostic sentence, as the specification quotes it. *)
Definition diagnostic : string :=
  "This route should not be reached - check app.yaml static handlers".

(** Whether answering [req], in the process started as [dunder_name], calls
    the view function [f]. *)
Definition handler_runs (dunder_name : string) (w0 : World) (req : Request)
    (f : Callable) : bool :=
  match main dunder_name w0 with
  | (Ok _, w) =>
      match app w with
      | Some a => calls_view a req f
      | None => false
      end
  | (Raise _, _) => false
  end.

(** What a request to [/] is answered with, by method. *)
Definition root_response (m : Method) : Response :=
  match m with
  | GET => Response_of diagnostic
  | HEAD => mkResponse 200 [content_type_html] ""
  | OPTIONS =>
      mkResponse 200 [content_type_html; ("Allow", "GET, OPTIONS, HEAD")] ""
  | _ => get_response (MethodNotAllowed [GET; OPTIONS; HEAD])
  end.

Definition static_rule : Rule :=
  mkRule "/static/<path:filename>" [GET; OPTIONS; HEAD] "static" true.

Definition root_rule : Rule :=
  mkRule "/" [GET; OPTIONS; HEAD] "index" true.

(** The application object once the module body has run. *)
Definition loaded (dunder_name : string) : Flask :=
  mkFlask dunder_name "/static" (Some "static")
    [static_rule; root_rule]
    [("static", fn_send_static_file); ("index", fn_index)].

Definition banner : string := " * Running on http://0.0.0.0:8080".

Definition after_import (dunder_name : string) (w : World) : World :=
  mkWorld (Some (loaded dunder_name)) (stderr w) (listening w)
    (request_ctx w) (static_files w).

Definition after_script (w : World) : World :=
  mkWorld (Some (loaded "__main__")) (stderr w ++ [banner])
    (Some ("0.0.0.0", 8080)) (request_ctx w) (static_files w).

(** A world in which nothing has happened yet. *)
Definition fresh (files : list (string * string)) : World :=
  mkWorld None [] None [] files.



(** What the loaded application answers [req] with when the static folder
    holds [files]. *)
Definition answer (files : list (string * string)) (req : Request)
  : Result Response :=
  fst (wsgi_app (loaded "main") req (fresh files)).

Ltac unfold_wsgi :=
  unfold wsgi_app, full_dispatch_request, dispatch_request, try_except, bind,
    push_request, pop_request, ret, raise.

(* ===================================================================== *)
(** * What the module body leaves behind *)
(* ===================================================================== *)

Lemma Flask_init_static (n : string) :
  Flask_init n =
  Ok (mkFlask n "/static" (Some "static") [static_rule]
        [("static", fn_send_static_file)]).
Proof. reflexivity. Qed.

Lemma main_import (n : string) (w : World) :
  n <> "__main__" -> main n w = (Ok tt, after_import n w).
Proof.
  intros Hn. unfold main, bind, lift. rewrite Flask_init_static.
  cbn [set_app on_app app]. unfold route.
  destruct (String.eqb_spec n "__main__") as [E | _]; [contradiction |].
  reflexivity.
Qed.

Lemma main_script (w : World) : main "__main__" w = (Ok tt, after_script w).
Proof. reflexivity. Qed.

Lemma main_ok (n : string) (w : World) :
  exists w', main n w = (Ok tt, w') /\ app w' = Some (loaded n)
             /\ request_ctx w' = request_ctx w
             /\ static_files w' = static_files w.
Proof.
  destruct (String.eqb_spec n "__main__") as [-> | Hn].
  - exists (after_script w). rewrite main_script. repeat split.
  - exists (after_import n w). rewrite main_import by assumption. repeat split.
Qed.

(* ===================================================================== *)
(** * Routing in the loaded application *)
(* ===================================================================== *)

Lemma root_rule_match (p : string) :
  rule_match root_rule p = if String.eqb p "/" then Some [] else None.
Proof.
  unfold rule_match.
  change (parse_rule _ (rule root_rule)) with [Static "/"].
  cbn [match_parts].
  destruct p as [| c p']; [reflexivity |].
  change (prefix "/" (String c p'))
    with (if ascii_dec "/" c then prefix "" p' else false).
  change (drop (String.length "/") (String c p')) with p'.
  change (String.eqb (String c p') "/") with (Ascii.eqb c "/" && String.eqb p' "").
  destruct (ascii_dec "/" c) as [<- | Hc].
  - destruct p'; reflexivity.
  - destruct (Ascii.eqb_spec c "/") as [-> | _]; [contradiction | reflexivity].
Qed.


Lemma static_rule_args (p : string) (args : list (string * string)) :
  rule_match static_rule p = Some args ->
  exists f, args = [("filename", f)].
Proof.
  unfold rule_match.
  change (parse_rule _ (rule static_rule))
    with [Static "/static/"; Converter "path" "filename"].
  cbn [match_parts].
  destruct (prefix "/static/" p); [| discriminate].
  cbn [String.eqb Ascii.eqb Bool.eqb].
  destruct (drop _ p) as [| ch rest]; [discriminate |].
  destruct (Ascii.eqb ch "/"); [discriminate |].
  intros [= <-]. eauto.
Qed.

(** Requests to [/]: the root rule decides by method alone. *)
Lemma target_root (n : string) (req : Request) :
  path req = "/" ->
  dispatch_target (loaded n) req =
  match method req with
  | GET | HEAD => CallView fn_index []
  | OPTIONS => AutomaticOptions
  | _ => Abort (HTTPError (MethodNotAllowed [GET; OPTIONS; HEAD]))
  end.
Proof.
  destruct req as [m p q h b]. cbn [path method]. intros ->.
  destruct m; reflexivity.
Qed.



(* ===================================================================== *)
(** * Answering requests *)
(* ===================================================================== *)

Lemma wsgi_root (n : string) (req : Request) (w : World) :
  path req = "/" ->
  wsgi_app (loaded n) req w = (Ok (root_response (method req)), w).
Proof.
  intros Hp. unfold_wsgi. rewrite (target_root n req Hp).
  destruct req as [m p q h b], w as [a e l c f]. cbn [method path] in *.
  subst p. destruct m; reflexivity.
Qed.


(** The loaded application answers every request: no exception escapes
    [wsgi_app]. *)
Lemma wsgi_answers (n : string) (req : Request) (w : World) :
  exists resp w', wsgi_app (loaded n) req w = (Ok resp, w').
Proof.
  unfold_wsgi.
  destruct (dispatch_target (loaded n) req) as [e | | f args].
  - destruct e; cbn; eauto.
  - cbn. eauto.
  - destruct f; unfold call.
    + destruct args as [| [k v] args]; cbn; eauto.
    + destruct (lookup "filename" args) as [filename |]; [| cbn; eauto].
      unfold send_static_file, bind, ret. cbn.
      destruct (lookup filename (static_files w)); cbn; eauto.
Qed.

Lemma serve_unfold (n : string) (w0 w : World) (req : Request) :
  main n w0 = (Ok tt, w) -> app w = Some (loaded n) ->
  serve n w0 req =
  match wsgi_app (loaded n) req w with
  | (Ok resp, w') => Some (resp, w')
  | (Raise _, _) => None
  end.
Proof. intros Hm Ha. unfold serve. rewrite Hm, Ha. reflexivity. Qed.

Lemma handler_runs_unfold (n : string) (w0 w : World) (req : Request)
    (f : Callable) :
  main n w0 = (Ok tt, w) -> app w = Some (loaded n) ->
  handler_runs n w0 req f = calls_view (loaded n) req f.
Proof. intros Hm Ha. unfold handler_runs. rewrite Hm, Ha. reflexivity. Qed.

Lemma serve_root (n : string) (w0 : World) (req : Request) :
  path req = "/" ->
  serve n w0 req = Some (root_response (method req), snd (main n w0)).
Proof.
  intros Hp. destruct (main_ok n w0) as (w & Hm & Ha & _).
  rewrite (serve_unfold n w0 w req Hm Ha), (wsgi_root n req w Hp), Hm.
  reflexivity.
Qed.

Lemma index_runs_root (n : string) (w0 : World) (req : Request) :
  path req = "/" ->
  handler_runs n w0 req fn_index =
  match method req with GET | HEAD => true | _ => false end.
Proof.
  intros Hp. destruct (main_ok n w0) as (w & Hm & Ha & _).
  rewrite (handler_runs_unfold n w0 w req fn_index Hm Ha).
  unfold calls_view. rewrite (target_root n req Hp).
  destruct (method req); reflexivity.
Qed.



(* ===================================================================== *)
(** * The root route *)
(* ===================================================================== *)

(** C1. Every GET request to [/] is answered with status 200 and the fixed
    diagnostic string as its body, produced by [index]. *)
Theorem get_root_is_diagnostic (n : string) (w0 : World) (req : Request) :
  method req = GET -> path req = "/" ->
  exists resp w',
    serve n w0 req = Some (resp, w')
    /\ status resp = 200
    /\ data resp =
       "This route should not be reached - check app.yaml static handlers"
    /\ handler_runs n w0 req fn_index = true.
Proof.
  intros Hm Hp. exists (root_response (method req)), (snd (main n w0)).
  rewrite (serve_root n w0 req Hp), (index_runs_root n w0 req Hp), Hm.
  repeat split.
Qed.

Lemma get_root_is_diagnostic_witness :
  let req := mkRequest GET "/" "utm=1" [("Accept", "*/*")] "" in
  method req = GET /\ path req = "/" /\
  exists resp w',
    serve "main" (fresh []) req = Some (resp, w')
    /\ status resp = 200
    /\ data resp =
       "This route should not be reached - check app.yaml static handlers"
    /\ handler_runs "main" (fresh []) req fn_index = true.
Proof.
  cbv zeta. split; [reflexivity |]. split; [reflexivity |].
  apply (get_root_is_diagnostic "main" (fresh [])
           (mkRequest GET "/" "utm=1" [("Accept", "*/*")] ""));
    reflexivity.
Defined.

(** C2, as stated, fails: a POST to [/] is answered 405 with the error page,
    not 200 with the diagnostic string. *)
Lemma post_root_is_rejected :
  exists resp,
    path (mkRequest POST "/" "" [] "") = "/"
    /\ option_map fst (serve "__main__" (fresh []) (mkRequest POST "/" "" [] ""))
       = Some resp
    /\ status resp = 405
    /\ data resp <> diagnostic.
Proof.
  exists (get_response (MethodNotAllowed [GET; OPTIONS; HEAD])).
  repeat split. cbn. discriminate.
Qed.

(** C2, amended. For a request to [/] the method decides the answer: GET
    gets 200 and the diagnostic string; HEAD gets 200 with [index] run and
    the body left out; OPTIONS gets 200 from the framework with an empty
    body and [index] not run; every other method gets 405 and [index] not
    run.  So the answer is 200 with the diagnostic body exactly for GET. *)
Theorem root_answer_by_method (n : string) (w0 : World) (req : Request) :
  path req = "/" ->
  exists resp w',
    serve n w0 req = Some (resp, w')
    /\ match method req with
       | GET => status resp = 200 /\ data resp = diagnostic
                /\ handler_runs n w0 req fn_index = true
       | HEAD => status resp = 200 /\ data resp = ""
                 /\ handler_runs n w0 req fn_index = true
       | OPTIONS => status resp = 200 /\ data resp = ""
                    /\ handler_runs n w0 req fn_index = false
       | _ => status resp = 405 /\ handler_runs n w0 req fn_index = false
       end
    /\ (status resp = 200 /\ data resp = diagnostic <-> method req = GET).
Proof.
  intros Hp. exists (root_response (method req)), (snd (main n w0)).
  rewrite (serve_root n w0 req Hp), (index_runs_root n w0 req Hp).
  split; [reflexivity |].
  destruct (method req); cbn; repeat split; try reflexivity;
    try (intros [H1 H2]; discriminate); try discriminate.
Qed.

Lemma root_answer_by_method_witness :
  let req := mkRequest HEAD "/" "" [] "" in
  path req = "/" /\
  exists resp w',
    serve "__main__" (fresh []) req = Some (resp, w')
    /\ match method req with
       | GET => status resp = 200 /\ data resp = diagnostic
                /\ handler_runs "__main__" (fresh []) req fn_index = true
       | HEAD => status resp = 200 /\ data resp = ""
                 /\ handler_runs "__main__" (fresh []) req fn_index = true
       | OPTIONS => status resp = 200 /\ data resp = ""
                    /\ handler_runs "__main__" (fresh []) req fn_index = false
       | _ => status resp = 405
              /\ handler_runs "__main__" (fresh []) req fn_index = false
       end
    /\ (status resp = 200 /\ data resp = diagnostic <-> method req = GET).
Proof.
  cbv zeta. split; [reflexivity |].
  apply (root_answer_by_method "__main__" (fresh [])
           (mkRequest HEAD "/" "" [] "")).
  reflexivity.
Defined.

(** C7. A request to [/] whose method is not GET, HEAD or OPTIONS is
    rejected with 405 Method Not Allowed; [index] does not run and the
    diagnostic string is not the body. *)
Theorem other_methods_not_allowed (n : string) (w0 : World) (req : Request) :
  path req = "/" ->
  method req <> GET -> method req <> HEAD -> method req <> OPTIONS ->
  exists resp w',
    serve n w0 req = Some (resp, w')
    /\ resp = get_response (MethodNotAllowed [GET; OPTIONS; HEAD])
    /\ status resp = 405
    /\ handler_runs n w0 req fn_index = false
    /\ data resp <> diagnostic.
Proof.
  intros Hp Hg Hh Ho. exists (root_response (method req)), (snd (main n w0)).
  rewrite (serve_root n w0 req Hp), (index_runs_root n w0 req Hp).
  destruct (method req); try contradiction; repeat split; cbn; discriminate.
Qed.

Lemma other_methods_not_allowed_witness :
  let req := mkRequest POST "/" "" [("Content-Type", "text/plain")] "x=1" in
  path req = "/" /\ method req <> GET /\ method req <> HEAD
  /\ method req <> OPTIONS /\
  exists resp w',
    serve "__main__" (fresh []) req = Some (resp, w')
    /\ resp = get_response (MethodNotAllowed [GET; OPTIONS; HEAD])
    /\ status resp = 405
    /\ handler_runs "__main__" (fresh []) req fn_index = false
    /\ data resp <> diagnostic.
Proof.
  cbv zeta. repeat (split; [first [reflexivity | discriminate] |]).
  apply (other_methods_not_allowed "__main__" (fresh [])
           (mkRequest POST "/" "" [("Content-Type", "text/plain")] "x=1"));
    first [reflexivity | discriminate].
Defined.

(* ===================================================================== *)
(** * Other paths *)
(* ===================================================================== *)




(* ===================================================================== *)
(** * The handler itself *)
(* ===================================================================== *)

(** C4. A call of [index] changes nothing: the world after it, log and
    globals included, is the world before it; and so is the world after a
    whole GET to [/] has been answered, whatever the request carries. *)
Theorem index_changes_nothing (w : World) :
  snd (index w) = w
  /\ stderr (snd (index w)) = stderr w
  /\ snd (call fn_index [] w) = w
  /\ forall n q h b,
       option_map snd (serve n w (mkRequest GET "/" q h b))
       = Some (snd (main n w)).
Proof.
  repeat split. intros n q h b.
  rewrite (serve_root n w (mkRequest GET "/" q h b) eq_refl). reflexivity.
Qed.

(** C5, as stated, fails: two requests to [/] that differ in their method,
    GET and POST, get different bodies. *)
Lemma bodies_differ_by_method :
  exists r1 r2,
    option_map fst (serve "__main__" (fresh []) (mkRequest GET "/" "" [] ""))
    = Some r1
    /\ option_map fst (serve "__main__" (fresh []) (mkRequest POST "/" "" [] ""))
       = Some r2
    /\ data r1 <> data r2.
Proof.
  exists (Response_of diagnostic),
    (get_response (MethodNotAllowed [GET; OPTIONS; HEAD])).
  repeat split. cbn. discriminate.
Qed.

(** C5, amended. [index] returns the same fixed string in every world,
    whatever request context it runs in; and two requests to [/] with the
    same method are answered identically (response and world left behind),
    whatever their query strings, headers and bodies. *)
Theorem root_answer_ignores_request (n : string) (w0 : World)
    (r1 r2 : Request) :
  path r1 = "/" -> path r2 = "/" -> method r1 = method r2 ->
  serve n w0 r1 = serve n w0 r2
  /\ forall w1 w2, fst (index w1) = Ok diagnostic
                   /\ fst (index w1) = fst (index w2).
Proof.
  intros H1 H2 Hm. split.
  - rewrite (serve_root n w0 r1 H1), (serve_root n w0 r2 H2), Hm. reflexivity.
  - intros w1 w2. split; reflexivity.
Qed.

Lemma root_answer_ignores_request_witness :
  let r1 := mkRequest GET "/" "a=1" [("Cookie", "s=1")] "" in
  let r2 := mkRequest GET "/" "b=2" [("Accept", "text/html")] "payload" in
  path r1 = "/" /\ path r2 = "/" /\ method r1 = method r2
  /\ serve "main" (fresh []) r1 = serve "main" (fresh []) r2
  /\ forall w1 w2, fst (index w1) = Ok diagnostic
                   /\ fst (index w1) = fst (index w2).
Proof.
  cbv zeta. repeat (split; [reflexivity |]).
  apply (root_answer_ignores_request "main" (fresh [])
           (mkRequest GET "/" "a=1" [("Cookie", "s=1")] "")
           (mkRequest GET "/" "b=2" [("Accept", "text/html")] "payload"));
    reflexivity.
Defined.

(** C8. [index] is total: in every world it returns a string and raises
    nothing, also when called the way the dispatcher calls it. *)
Theorem index_returns_string (w : World) :
  (exists s : string, index w = (Ok s, w))
  /\ (forall e, fst (index w) <> Raise e)
  /\ exists s : string, fst (call fn_index [] w) = Ok (RvStr s).
Proof.
  split; [| split].
  - exists diagnostic. reflexivity.
  - intros e. discriminate.
  - exists diagnostic. reflexivity.
Qed.

(* ===================================================================== *)
(** * Starting the server *)
(* ===================================================================== *)

(** C6. Run as the main program, the module body completes its set-up and
    starts the server on host 0.0.0.0, port 8080. *)
Theorem main_listens_on_8080 (w : World) :
  fst (main "__main__" w) = Ok tt
  /\ listening (snd (main "__main__" w)) = Some ("0.0.0.0", 8080).
Proof. rewrite main_script. split; reflexivity. Qed.

(** C9. Run under any other name (imported), the module body starts no
    listener and logs nothing; from a world with no listener, one exists
    afterwards exactly when the name is [__main__]. *)
Theorem import_starts_no_listener (n : string) (w : World) :
  listening w = None ->
  (n <> "__main__" ->
     fst (main n w) = Ok tt
     /\ listening (snd (main n w)) = None
     /\ stderr (snd (main n w)) = stderr w)
  /\ (listening (snd (main n w)) <> None <-> n = "__main__").
Proof.
  intros Hl. split.
  - intros Hn. rewrite (main_import n w Hn). cbn. repeat split. exact Hl.
  - split.
    + intros H. destruct (String.eqb_spec n "__main__") as [E | Hn];
        [exact E |].
      rewrite (main_import n w Hn) in H. cbn in H. contradiction.
    + intros ->. rewrite main_script. cbn. discriminate.
Qed.

Lemma import_starts_no_listener_witness :
  listening (fresh []) = None /\ "main" <> "__main__"
  /\ fst (main "main" (fresh [])) = Ok tt
  /\ listening (snd (main "main" (fresh []))) = None
  /\ stderr (snd (main "main" (fresh []))) = stderr (fresh []).
Proof.
  assert (Hl : listening (fresh []) = None) by reflexivity.
  assert (Hn : "main" <> "__main__") by discriminate.
  split; [exact Hl |]. split; [exact Hn |].
  exact (proj1 (import_starts_no_listener "main" (fresh []) Hl) Hn).
Defined.

(* ===================================================================== *)
(** * The application as a whole *)
(* ===================================================================== *)

(** Requests to a path other than [/], case by case. *)
Lemma target_elsewhere_cases (n : string) (req : Request) :
  path req <> "/" ->
  dispatch_target (loaded n) req = Abort (HTTPError NotFound)
  \/ dispatch_target (loaded n) req
     = Abort (HTTPError (MethodNotAllowed [GET; OPTIONS; HEAD]))
  \/ (dispatch_target (loaded n) req = AutomaticOptions
      /\ method req = OPTIONS)
  \/ exists x,
       dispatch_target (loaded n) req
       = CallView fn_send_static_file [("filename", x)]
       /\ (method req = GET \/ method req = HEAD).
Proof.
  intros Hp. unfold dispatch_target, match_request.
  cbn [url_map loaded match_rules]. rewrite root_rule_match.
  destruct (String.eqb_spec (path req) "/") as [E | _]; [contradiction |].
  destruct (rule_match static_rule (path req)) as [args |] eqn:Hs.
  - apply static_rule_args in Hs. destruct Hs as [x ->].
    destruct (method req); cbn; eauto 7.
  - cbn. eauto.
Qed.

Lemma error_page_is_not_diagnostic (h : HTTPException) (req : Request) :
  data (get_wsgi_response req (get_response h)) <> diagnostic.
Proof.
  unfold get_wsgi_response. destruct (method req); cbn; discriminate.
Qed.

(** The loaded application answers every request, from the request and the
    static folder alone, and leaves the world as it found it. *)
Lemma wsgi_loaded (n : string) (req : Request) (w : World) :
  wsgi_app (loaded n) req w = (answer (static_files w) req, w)
  /\ exists resp, answer (static_files w) req = Ok resp /\ status resp <> 500.
Proof.
  unfold answer.
  destruct (String.eqb_spec (path req) "/") as [Hp | Hp].
  - rewrite !(wsgi_root _ req _ Hp). cbn [fst]. split; [reflexivity |].
    eexists. split; [reflexivity |]. destruct (method req); cbn; discriminate.
  - destruct w as [a e l c f]. cbn [static_files].
    unfold_wsgi.
    change (dispatch_target (loaded "main") req)
      with (dispatch_target (loaded n) req).
    destruct (target_elsewhere_cases n req Hp)
      as [-> | [-> | [[-> _] | [x [-> _]]]]].
    + cbn. split; [reflexivity |]. eexists. split; [reflexivity |].
      unfold get_wsgi_response. destruct (method req); cbn; discriminate.
    + cbn. split; [reflexivity |]. eexists. split; [reflexivity |].
      unfold get_wsgi_response. destruct (method req); cbn; discriminate.
    + cbn. split; [reflexivity |]. eexists. split; [reflexivity |].
      unfold get_wsgi_response. destruct (method req); cbn; discriminate.
    + unfold call, send_static_file, bind, ret, fresh. cbn.
      destruct (lookup x f) as [content |]; cbn.
      * split; [reflexivity |]. eexists. split; [reflexivity |].
        unfold get_wsgi_response. destruct (method req); cbn; discriminate.
      * split; [reflexivity |]. eexists. split; [reflexivity |].
        unfold get_wsgi_response. destruct (method req); cbn; discriminate.
Qed.

Lemma serve_answer (n : string) (w0 : World) (req : Request) :
  exists resp,
    answer (static_files w0) req = Ok resp
    /\ status resp <> 500
    /\ serve n w0 req = Some (resp, snd (main n w0)).
Proof.
  destruct (main_ok n w0) as (w & Hm & Ha & _ & Hf).
  destruct (wsgi_loaded n req w) as (Hw & resp & Hr & Hs).
  exists resp. rewrite <- Hf. repeat split; try assumption.
  rewrite (serve_unfold n w0 w req Hm Ha), Hw, Hr, Hm. reflexivity.
Qed.


Lemma answer_head (files : list (string * string)) (p q : string)
    (h : list (string * string)) (b : string) :
  exists r,
    answer files (mkRequest GET p q h b) = Ok r
    /\ answer files (mkRequest HEAD p q h b)
       = Ok (mkResponse (status r) (resp_headers r) "").
Proof.
  unfold answer. unfold_wsgi. unfold dispatch_target, match_request.
  cbn [path method url_map loaded match_rules]. rewrite root_rule_match.
  destruct (String.eqb_spec p "/") as [-> | _].
  - cbn. eexists. split; reflexivity.
  - destruct (rule_match static_rule p) as [args |] eqn:Hs.
    + apply static_rule_args in Hs. destruct Hs as [x ->].
      unfold call, send_static_file, bind, ret, fresh. cbn.
      destruct (lookup x files); cbn; eexists; split; reflexivity.
    + cbn. eexists. split; reflexivity.
Qed.






(** X5. HEAD mirrors GET on every path: the answer to a HEAD request has
    the status and the headers of the answer to the same request made with
    GET, and an empty body. *)
Theorem head_mirrors_get (n : string) (w0 : World) (p q : string)
    (h : list (string * string)) (b : string) :
  exists rg rh w',
    serve n w0 (mkRequest GET p q h b) = Some (rg, w')
    /\ serve n w0 (mkRequest HEAD p q h b) = Some (rh, w')
    /\ status rh = status rg
    /\ resp_headers rh = resp_headers rg
    /\ data rh = "".
Proof.
  destruct (answer_head (static_files w0) p q h b) as (r & Hg & Hh).
  destruct (serve_answer n w0 (mkRequest GET p q h b))
    as (rg & Hg' & _ & Hsg).
  destruct (serve_answer n w0 (mkRequest HEAD p q h b))
    as (rh & Hh' & _ & Hsh).
  exists rg, rh, (snd (main n w0)).
  assert (rg = r) by congruence. subst rg.
  assert (rh = mkResponse (status r) (resp_headers r) "") by congruence.
  subst rh. repeat split; assumption.
Qed.

(** X6. The name the module runs under does not show in any response: run
    as the main program or imported, the application answers every request
    alike. *)
Theorem launch_mode_is_invisible (n1 n2 : string) (w0 : World)
    (req : Request) :
  option_map fst (serve n1 w0 req) = option_map fst (serve n2 w0 req).
Proof.
  destruct (serve_answer n1 w0 req) as (r1 & H1 & _ & S1).
  destruct (serve_answer n2 w0 req) as (r2 & H2 & _ & S2).
  rewrite S1, S2. cbn. congruence.
Qed.

(** X7. No view function runs for a request whose method is neither GET nor
    HEAD, on any path. *)
Theorem views_run_only_for_get_or_head (n : string) (w0 : World)
    (req : Request) (f : Callable) :
  handler_runs n w0 req f = true ->
  method req = GET \/ method req = HEAD.
Proof.
  destruct (main_ok n w0) as (w & Hm & Ha & _).
  rewrite (handler_runs_unfold n w0 w req f Hm Ha). unfold calls_view.
  destruct (String.eqb_spec (path req) "/") as [Hp | Hp].
  - rewrite (target_root n req Hp).
    destruct (method req); intros H; try discriminate H; auto.
  - destruct (target_elsewhere_cases n req Hp)
      as [-> | [-> | [[-> _] | [x [-> Hmeth]]]]];
      intros H; try discriminate H. exact Hmeth.
Qed.

Lemma views_run_only_for_get_or_head_witness :
  handler_runs "main" (fresh [("app.js", "console.log(1)")])
    (mkRequest HEAD "/static/app.js" "" [] "") fn_send_static_file = true
  /\ (method (mkRequest HEAD "/static/app.js" "" [] "") = GET
      \/ method (mkRequest HEAD "/static/app.js" "" [] "") = HEAD).
Proof.
  split; [reflexivity |].
  apply (views_run_only_for_get_or_head "main"
           (fresh [("app.js", "console.log(1)")])
           (mkRequest HEAD "/static/app.js" "" [] "") fn_send_static_file).
  reflexivity.
Defined.
